(** * Year-by-year sentiment pipeline of the Dilbert archive

    A shallow embedding of [analysis/yearly_sentiment/yearly_sentiment.py]:
    the dataset loader ([load_dataset]), the sentiment normaliser
    ([compute_sentiment]), the year aggregator ([aggregate_by_year]) and the
    orchestration ([main]), with the theorems that relate them to the
    written specification.

    Conventions of the embedding.
    - Python [str] is [string]; only the ASCII part of [str.strip] and of the
      digits accepted by [datetime.strptime] is modelled.
    - Python [int] is [Z] (years) or [nat] (lengths and counters).
    - Python [float] is an exact rational [Q]: rounding of binary64 addition
      and division is outside the model.
    - [print], file reads and file writes act on an explicit [world];
      exceptions are the [Raise] outcome of a computation. *)

From Stdlib Require Import List String Ascii ZArith QArith Qabs Lia Bool.
From Stdlib Require Import Permutation Sorted DecimalString.
From Stdlib Require Import Lqa.
Import ListNotations.

Local Open Scope string_scope.
Local Open Scope Z_scope.

(** ** Python strings *)

Module PyStr.

(** [str.isspace] on one ASCII character: TAB, LF, VT, FF, CR, the four
    separators 0x1c-0x1f and the space. *)
Definition isspace (c : ascii) : bool :=
  let n := nat_of_ascii c in
  ((9 <=? n) && (n <=? 13) || (28 <=? n) && (n <=? 32))%nat.

Fixpoint lstrip (s : string) : string :=
  match s with
  | EmptyString => EmptyString
  | String c rest => if isspace c then lstrip rest else s
  end.

Fixpoint rstrip (s : string) : string :=
  match s with
  | EmptyString => EmptyString
  | String c rest =>
      match rstrip rest with
      | EmptyString => if isspace c then EmptyString else String c EmptyString
      | kept => String c kept
      end
  end.

(** [s.strip()] *)
Definition strip (s : string) : string := rstrip (lstrip s).

(** Truth value of a string: [bool(s)], false exactly for the empty one. *)
Definition truthy (s : string) : bool :=
  match s with EmptyString => false | String _ _ => true end.

(** [str(n)] for a non-negative [int]. *)
Definition of_nat (n : nat) : string := NilZero.string_of_uint (Nat.to_uint n).

(** [str(z)] for an [int]. *)
Definition of_Z (z : Z) : string := NilZero.string_of_int (Z.to_int z).

(** [s * n] *)
Fixpoint repeat (s : string) (n : nat) : string :=
  match n with O => EmptyString | S k => s ++ repeat s k end.

(** First and last characters, when the string has any. *)
Definition first (s : string) : option ascii :=
  match s with EmptyString => None | String c _ => Some c end.


End PyStr.

(** ** [datetime.strptime(_, "%Y-%m-%d")] *)

Module PyDate.

Record datetime := mk_datetime { dt_year : Z; dt_month : Z; dt_day : Z }.

Definition is_digit (c : ascii) : bool :=
  let n := nat_of_ascii c in ((48 <=? n) && (n <=? 57))%nat.

Definition digit (c : ascii) : Z := Z.of_nat (nat_of_ascii c) - 48.

Definition in_range (lo hi : ascii) (c : ascii) : bool :=
  ((nat_of_ascii lo <=? nat_of_ascii c) && (nat_of_ascii c <=? nat_of_ascii hi))%nat.

(** [%Y] is the pattern [\d\d\d\d]. *)
Definition parse_Y (s : string) : option (Z * string) :=
  match s with
  | String a (String b (String c (String d rest))) =>
      if is_digit a && is_digit b && is_digit c && is_digit d
      then Some (1000 * digit a + 100 * digit b + 10 * digit c + digit d, rest)
      else None
  | _ => None
  end.

(** [%m] is the pattern [1[0-2]|0[1-9]|[1-9]], alternatives tried in that
    order. *)
Definition parse_m (s : string) : option (Z * string) :=
  match s with
  | String a rest =>
      let two :=
        match rest with
        | String b rest' =>
            if Ascii.eqb a "1" && in_range "0" "2" b then Some (10 + digit b, rest')
            else if Ascii.eqb a "0" && in_range "1" "9" b then Some (digit b, rest')
            else None
        | EmptyString => None
        end in
      match two with
      | Some r => Some r
      | None => if in_range "1" "9" a then Some (digit a, rest) else None
      end
  | EmptyString => None
  end.

(** [%d] is the pattern [3[0-1]|[1-2]\d|0[1-9]|[1-9]| [1-9]]. *)
Definition parse_d (s : string) : option (Z * string) :=
  match s with
  | String a rest =>
      let two :=
        match rest with
        | String b rest' =>
            if Ascii.eqb a "3" && in_range "0" "1" b then Some (30 + digit b, rest')
            else if in_range "1" "2" a && is_digit b then Some (10 * digit a + digit b, rest')
            else if Ascii.eqb a "0" && in_range "1" "9" b then Some (digit b, rest')
            else None
        | EmptyString => None
        end in
      match two with
      | Some r => Some r
      | None =>
          if in_range "1" "9" a then Some (digit a, rest)
          else match rest with
               | String b rest' =>
                   if Ascii.eqb a " " && in_range "1" "9" b then Some (digit b, rest')
                   else None
               | EmptyString => None
               end
      end
  | EmptyString => None
  end.

Definition expect (c : ascii) (s : string) : option string :=
  match s with
  | String a rest => if Ascii.eqb a c then Some rest else None
  | EmptyString => None
  end.

Definition is_leap (y : Z) : bool :=
  (y mod 4 =? 0) && (negb (y mod 100 =? 0) || (y mod 400 =? 0)).

Definition days_in_month (y m : Z) : Z :=
  if m =? 2 then (if is_leap y then 29 else 28)
  else if (m =? 4) || (m =? 6) || (m =? 9) || (m =? 11) then 30
  else 31.

(** The [datetime] constructor refuses year 0 and days past the end of the
    month. *)
Definition valid_date (y m d : Z) : bool :=
  (1 <=? y) && (y <=? 9999) && (1 <=? m) && (m <=? 12)
  && (1 <=? d) && (d <=? days_in_month y m).

(** [None] stands for the [ValueError] of a string that does not match the
    format, leaves unconverted data, or names no calendar day. *)
Definition strptime (s : string) : option datetime :=
  match parse_Y s with
  | None => None
  | Some (y, s1) =>
      match expect "-" s1 with
      | None => None
      | Some s2 =>
          match parse_m s2 with
          | None => None
          | Some (m, s3) =>
              match expect "-" s3 with
              | None => None
              | Some s4 =>
                  match parse_d s4 with
                  | Some (d, EmptyString) =>
                      if valid_date y m d then Some (mk_datetime y m d) else None
                  | _ => None
                  end
              end
          end
      end
  end.

End PyDate.


(** ** Frames, files and the effects of the script *)

(** A row of the frame built by [load_dataset]: the dict with the keys
    ['date'], ['year'] and ['text']. *)
Record DocumentRecord := mk_record {
  date : string;
  year : Z;
  text : string
}.

(** A row of the frame returned by [compute_sentiment]: the three columns of
    the loader and the three sentiment columns joined by [pd.concat]. *)
Record ScoredRecord := mk_scored {
  doc : DocumentRecord;
  sentiment_label : string;
  sentiment_score : Q;
  sentiment_value : Q
}.

(** A row of [yearly_stats]. *)
Record YearStats := mk_stats {
  stats_year : Z;
  mean_sentiment : Q;
  comic_count : nat
}.

(** What the classifier hands back for one text: [{'label': _, 'score': _}]. *)
Record ClassifierOutput := mk_output {
  label : string;
  score : Q
}.

(** A frame built by [pd.DataFrame(list_of_dicts)] is the list of its rows.
    Its columns are inferred from the dicts, so the frame of an empty list has
    no column at all; see [column]. *)
Definition DataFrame (row : Type) : Type := list row.

(** One value of the JSON object: the fields the script reads are strings. *)
Definition entry : Type := list (string * string).

(** The parsed JSON object, in the iteration order of the dict. *)
Definition dataset : Type := list (string * entry).

Inductive file_state :=
| Missing
| Unreadable (reason : string)
| Malformed (reason : string)
| Holds (data : dataset).

Inductive artifact :=
| CsvFile (path : string) (rows : DataFrame YearStats)
| PngFile (path : string) (points : list (Z * Q)).

(** Console output. Text is kept as is; the rendering of a frame by
    [describe()] and [to_string()] is kept as the frame that was rendered. *)
Inductive printed :=
| Line (s : string)
| Describe (stats : DataFrame YearStats)
| Rows (stats : DataFrame YearStats).

Record world := mk_world {
  disk : string -> file_state;
  stdout : list printed;
  written : list artifact
}.

Module Py.

Inductive exn :=
| FileNotFoundError (msg : string)
| OSError (msg : string)
| JSONDecodeError (msg : string)
| KeyError (key : string).

(** [str(e)] *)
Definition str (e : exn) : string :=
  match e with
  | FileNotFoundError msg | OSError msg | JSONDecodeError msg => msg
  | KeyError key => "'" ++ key ++ "'"
  end.

Inductive result (A : Type) :=
| Ok (a : A)
| Raise (e : exn).

Arguments Ok {A} a.
Arguments Raise {A} e.

(** A statement of the script: it runs in a world and either yields a value
    or raises, and leaves a world behind in both cases. *)
Definition M (A : Type) : Type := world -> result A * world.

Definition ret {A} (a : A) : M A := fun w => (Ok a, w).

Definition bind {A B} (m : M A) (k : A -> M B) : M B :=
  fun w =>
    match m w with
    | (Ok a, w') => k a w'
    | (Raise e, w') => (Raise e, w')
    end.

Definition raise {A} (e : exn) : M A := fun w => (Raise e, w).

(** [try: body except Exception as e: handler(e)] *)
Definition try_except {A} (body : M A) (handler : exn -> M A) : M A :=
  fun w =>
    match body w with
    | (Ok a, w') => (Ok a, w')
    | (Raise e, w') => handler e w'
    end.

Definition emit (p : printed) : M unit :=
  fun w => (Ok tt, mk_world (disk w) (stdout w ++ [p]) (written w)).

(** [print(s)] *)
Definition print (s : string) : M unit := emit (Line s).

Definition write (a : artifact) : M unit :=
  fun w => (Ok tt, mk_world (disk w) (stdout w) (written w ++ [a])).

(** [path.exists()] *)
Definition exists_ (path : string) : M bool :=
  fun w => (Ok (match disk w path with Missing => false | _ => true end), w).

(** [with open(path) as f: json.load(f)] *)
Definition json_load (path : string) : M dataset :=
  fun w =>
    match disk w path with
    | Missing => (Raise (FileNotFoundError path), w)
    | Unreadable reason => (Raise (OSError reason), w)
    | Malformed reason => (Raise (JSONDecodeError reason), w)
    | Holds data => (Ok data, w)
    end.

(** [for x in xs: acc = body(x, acc)] *)
Fixpoint for_each {A S} (xs : list A) (body : A -> S -> M S) (acc : S) : M S :=
  match xs with
  | [] => ret acc
  | x :: rest => bind (body x acc) (for_each rest body)
  end.

(** [row[name]] on a frame whose column [name] holds [get row]: a [KeyError]
    when the frame has no columns, the column otherwise. *)
Definition column {row A} (df : DataFrame row) (name : string) (get : row -> A)
  : M (list A) :=
  match df with
  | [] => raise (KeyError name)
  | _ :: _ => ret (map get df)
  end.

End Py.

Declare Scope py_scope.
Delimit Scope py_scope with py.
Notation "x <- m ;; k" := (Py.bind m (fun x => k))
  (at level 61, m at next level, right associativity) : py_scope.
Notation "' pat <- m ;; k" := (Py.bind m (fun x => match x with pat => k end))
  (at level 61, pat pattern, m at next level, right associativity) : py_scope.
Notation "m ;; k" := (Py.bind m (fun _ => k))
  (at level 61, right associativity) : py_scope.

(** ** The script *)

Local Open Scope py_scope.

(** The line feed of the ["\n..."] literals. *)
Definition nl : string := String "010" EmptyString.

(** [d.get(key, default)] *)
Fixpoint dict_get (d : entry) (key default : string) : string :=
  match d with
  | [] => default
  | (k, v) :: rest => if String.eqb k key then v else dict_get rest key default
  end.

(** [series.min()] and [series.max()] of a column of integers. *)
Definition series_min (l : list Z) : Z :=
  match l with [] => 0 | x :: rest => fold_left Z.min rest x end.

Definition series_max (l : list Z) : Z :=
  match l with [] => 0 | x :: rest => fold_left Z.max rest x end.

(** [not transcript or not transcript.strip()] (line 83). *)
Definition lacks_text (transcript : string) : bool :=
  negb (PyStr.truthy transcript) || negb (PyStr.truthy (PyStr.strip transcript)).

(** The body of the loop of [load_dataset] (lines 78-100), on the two locals
    it updates: [records] and [skipped]. *)
Definition load_entry (item : string * entry)
    (acc : list DocumentRecord * nat) : Py.M (list DocumentRecord * nat) :=
  let '(date_str, e) := item in
  let '(records, skipped) := acc in
  let transcript := dict_get e "transcript" "" in
  if lacks_text transcript then
    Py.ret (records, S skipped)
  else
    match PyDate.strptime date_str with
    | None =>
        Py.print ("Warning: Could not parse date '" ++ date_str ++ "', skipping") ;;
        Py.ret (records, S skipped)
    | Some date_obj =>
        Py.ret ((records ++ [mk_record date_str (PyDate.dt_year date_obj)
                                       (PyStr.strip transcript)])%list, skipped)
    end.

Definition load_dataset (dataset_path : string) : Py.M (DataFrame DocumentRecord) :=
  Py.print ("Loading dataset from: " ++ dataset_path) ;;
  present <- Py.exists_ dataset_path ;;
  (if negb present then
     Py.raise (Py.FileNotFoundError
       ("Dataset not found at " ++ dataset_path ++ ". "
        ++ "Please check the DATASET_PATH constant in this script."))
   else Py.ret tt) ;;
  data <- Py.json_load dataset_path ;;
  Py.print ("Loaded " ++ PyStr.of_nat (List.length data) ++ " comics from dataset") ;;
  '(records, skipped) <- Py.for_each data load_entry ([], O) ;;
  (if (0 <? skipped)%nat then
     Py.print ("Warning: Skipped " ++ PyStr.of_nat skipped
               ++ " entries due to missing data")
   else Py.ret tt) ;;
  let df : DataFrame DocumentRecord := records in
  Py.print ("Created DataFrame with " ++ PyStr.of_nat (List.length df) ++ " comics") ;;
  lo <- Py.column df "year" year ;;
  hi <- Py.column df "year" year ;;
  Py.print ("Year range: " ++ PyStr.of_Z (series_min lo) ++ " to "
            ++ PyStr.of_Z (series_max hi)) ;;
  Py.ret df.

(** Lines 164-167: the signed value of a classifier answer. *)
Definition signed_value (label : string) (score : Q) : Q :=
  if String.eqb label "POSITIVE" then score else Qopp score.

(** The dict appended to [results] (lines 169-173). *)
Record SentimentRow := mk_sentiment {
  row_label : string;
  row_score : Q;
  row_value : Q
}.

(** [pd.concat([df, sentiment_df], axis=1)]: both frames carry the index
    [0..n-1], so the rows are joined position by position. *)
Definition concat_columns (df : DataFrame DocumentRecord)
    (sentiment_df : DataFrame SentimentRow) : DataFrame ScoredRecord :=
  map (fun p => mk_scored (fst p) (row_label (snd p)) (row_score (snd p))
                          (row_value (snd p)))
      (combine df sentiment_df).

(** [df.iterrows()]: the rows with their index labels. *)
Definition iterrows {row} (df : DataFrame row) : list (nat * row) :=
  combine (seq 0 (List.length df)) df.

Section Classifier.

(** The Hugging Face pipeline, a collaborator of the script: one answer per
    text. *)
Variable sentiment_analyzer : string -> ClassifierOutput.

(** The body of the loop of [compute_sentiment] (lines 151-177). *)
Definition score_row (total : nat) (item : nat * DocumentRecord)
    (results : list SentimentRow) : Py.M (list SentimentRow) :=
  let '(idx, row) := item in
  let result := sentiment_analyzer (text row) in
  let label := label result in
  let score := score result in
  let sentiment_value := signed_value label score in
  let results := (results ++ [mk_sentiment label score sentiment_value])%list in
  (if ((idx + 1) mod 100 =? 0)%nat then
     Py.print ("  Processed " ++ PyStr.of_nat (idx + 1) ++ "/"
               ++ PyStr.of_nat total ++ " comics...")
   else Py.ret tt) ;;
  Py.ret results.

Definition compute_sentiment (df : DataFrame DocumentRecord)
  : Py.M (DataFrame ScoredRecord) :=
  Py.print (nl ++ "Initializing sentiment analyzer...") ;;
  Py.print "(This may take a moment on first run as the model downloads)" ;;
  Py.print "Sentiment analyzer ready. Processing comics..." ;;
  Py.print "(This may take several minutes for thousands of comics)" ;;
  let total := List.length df in
  results <- Py.for_each (iterrows df) (score_row total) [] ;;
  Py.print ("Completed sentiment analysis for " ++ PyStr.of_nat total ++ " comics") ;;
  let sentiment_df : DataFrame SentimentRow := results in
  Py.ret (concat_columns df sentiment_df).

End Classifier.

(** *** Aggregation *)

(** The group keys of [groupby]: the distinct values of the key column in
    ascending order. *)
Fixpoint insert_key (y : Z) (keys : list Z) : list Z :=
  match keys with
  | [] => [y]
  | k :: rest =>
      if y <? k then y :: keys
      else if y =? k then keys
      else k :: insert_key y rest
  end.

Definition group_keys (years : list Z) : list Z := fold_right insert_key [] years.

(** The rows of one group. *)
Definition group_rows (df : DataFrame ScoredRecord) (y : Z) : list ScoredRecord :=
  filter (fun r => year (doc r) =? y) df.

(** [df.groupby('year')]: a [KeyError] when the frame has no such column. *)
Definition groupby_year (df : DataFrame ScoredRecord)
  : Py.M (list (Z * list ScoredRecord)) :=
  years <- Py.column df "year" (fun r => year (doc r)) ;;
  Py.ret (map (fun y => (y, group_rows df y)) (group_keys years)).

(** ['mean'] of a column of floats: the sum in row order over the count. *)
Definition series_sum (values : list Q) : Q := fold_left Qplus values (0#1).

Definition series_mean (values : list Q) : Q :=
  Qdiv (series_sum values) (inject_Z (Z.of_nat (List.length values))).

(** [.agg({'sentiment_value': 'mean', 'date': 'count'})], the renaming of the
    two columns and [reset_index()], for one group. *)
Definition agg_group (g : Z * list ScoredRecord) : YearStats :=
  mk_stats (fst g)
           (series_mean (map sentiment_value (snd g)))
           (List.length (map (fun r => date (doc r)) (snd g))).

(** [sort_values('year')] *)
Fixpoint insert_stats (a : YearStats) (sorted : list YearStats) : list YearStats :=
  match sorted with
  | [] => [a]
  | b :: rest =>
      if stats_year a <=? stats_year b then a :: sorted
      else b :: insert_stats a rest
  end.

Definition sort_values_year (stats : DataFrame YearStats) : DataFrame YearStats :=
  fold_right insert_stats [] stats.

(** [series.sum()] of the counts. *)
Definition count_sum (stats : DataFrame YearStats) : nat :=
  fold_left Nat.add (map comic_count stats) O.

Definition aggregate_by_year (df : DataFrame ScoredRecord)
  : Py.M (DataFrame YearStats) :=
  Py.print (nl ++ "Aggregating sentiment by year...") ;;
  groups <- groupby_year df ;;
  let yearly_stats := map agg_group groups in
  let yearly_stats := sort_values_year yearly_stats in
  Py.print ("Aggregated data for " ++ PyStr.of_nat (List.length yearly_stats)
            ++ " years") ;;
  Py.print ("Total comics analyzed: " ++ PyStr.of_nat (count_sum yearly_stats)) ;;
  Py.ret yearly_stats.

(** *** Report and orchestration *)

Definition plot_sentiment_trend (yearly_stats : DataFrame YearStats)
    (output_path : string) : Py.M unit :=
  Py.print (nl ++ "Generating visualization...") ;;
  Py.write (PngFile output_path
              (map (fun a => (stats_year a, mean_sentiment a)) yearly_stats)) ;;
  Py.print ("Saved plot to: " ++ output_path).

(** [df.head(10)] and [df.tail(10)] *)
Definition head10 {row} (df : DataFrame row) : DataFrame row := firstn 10 df.

Definition tail10 {row} (df : DataFrame row) : DataFrame row :=
  skipn (List.length df - 10) df.

Section Main.

Variable sentiment_analyzer : string -> ClassifierOutput.

(** The module constants of lines 29-34. *)
Variables DATASET_PATH CSV_OUTPUT PNG_OUTPUT : string.

(** The body of the [try] of [main] (lines 303-331). *)
Definition main_body : Py.M unit :=
  df <- load_dataset DATASET_PATH ;;
  df <- compute_sentiment sentiment_analyzer df ;;
  yearly_stats <- aggregate_by_year df ;;
  Py.write (CsvFile CSV_OUTPUT yearly_stats) ;;
  Py.print (nl ++ "Saved yearly statistics to: " ++ CSV_OUTPUT) ;;
  plot_sentiment_trend yearly_stats PNG_OUTPUT ;;
  Py.print (nl ++ PyStr.repeat "=" 70) ;;
  Py.print "Analysis Complete!" ;;
  Py.print (PyStr.repeat "=" 70) ;;
  Py.print (nl ++ "Output files:") ;;
  Py.print ("  CSV: " ++ CSV_OUTPUT) ;;
  Py.print ("  PNG: " ++ PNG_OUTPUT) ;;
  Py.print (nl ++ "Summary statistics:") ;;
  Py.emit (Describe yearly_stats) ;;
  Py.print (nl ++ "First few years:") ;;
  Py.emit (Rows (head10 yearly_stats)) ;;
  Py.print (nl ++ "Last few years:") ;;
  Py.emit (Rows (tail10 yearly_stats)).

Definition main : Py.M unit :=
  Py.print (PyStr.repeat "=" 70) ;;
  Py.print "Year-by-Year Sentiment Analysis for Dilbert Transcripts" ;;
  Py.print (PyStr.repeat "=" 70) ;;
  Py.try_except main_body
    (fun e => Py.print (nl ++ "Error: " ++ Py.str e) ;; Py.raise e).

End Main.

(** *** Running a statement *)

(** A world whose only file is the dataset, with nothing printed or written
    yet. *)
Definition fresh_world (dataset_path : string) (f : file_state) : world :=
  mk_world (fun p => if String.eqb p dataset_path then f else Missing) [] [].

(** The outcome of a run without its world. *)
Definition outcome {A} (m : Py.M A) (w : world) : Py.result A := fst (m w).

(** The rows a run hands on: none when it raises. *)
Definition emitted {row} (r : Py.result (DataFrame row)) : DataFrame row :=
  match r with Py.Ok df => df | Py.Raise _ => [] end.

(** ** Vocabulary of the specification

    The definitions below follow the words of the written specification, not
    the code; the theorems relate the two. *)

Module Spec.

(** The text field of an entry, when it has one. *)
Fixpoint text_field (e : entry) : option string :=
  match e with
  | [] => None
  | (k, v) :: rest => if String.eqb k "transcript" then Some v else text_field rest
  end.

(** A string made of whitespace only; the empty string is one. *)
Fixpoint whitespace_only (s : string) : bool :=
  match s with
  | EmptyString => true
  | String c rest => PyStr.isspace c && whitespace_only rest
  end.

(** "The text field is absent, empty, or whitespace-only." *)
Definition no_text (e : entry) : bool :=
  match text_field e with
  | None => true
  | Some s => whitespace_only s
  end.

(** "Parsing the key as a calendar date fails." *)
Definition unparsable (key : string) : bool :=
  match PyDate.strptime key with None => true | Some _ => false end.

(** An entry the loader is to skip. *)
Definition skipped_entry (item : string * entry) : bool :=
  no_text (snd item) || unparsable (fst item).

(** The diagnostic of an unparsable key. *)
Definition date_warning (key : string) : printed :=
  Line ("Warning: Could not parse date '" ++ key ++ "', skipping").

(** The entries that get a date diagnostic: those with text whose key does
    not parse. *)
Definition warned_entry (item : string * entry) : bool :=
  negb (no_text (snd item)) && unparsable (fst item).



(** "POSITIVE or NEGATIVE" and "confidence in [0,1]". *)
Definition in_contract (o : ClassifierOutput) : bool :=
  (String.eqb (label o) "POSITIVE" || String.eqb (label o) "NEGATIVE")
  && Qle_bool 0 (score o) && Qle_bool (score o) 1.

(** "Number of records of that year." *)
Definition year_count (df : DataFrame ScoredRecord) (y : Z) : nat :=
  count_occ Z.eq_dec (map (fun r => year (doc r)) df) y.


(** The spec's fatal data-source error: what the existence check, [open] and
    [json.load] raise. *)
Definition DataSourceError (e : Py.exn) : bool :=
  match e with
  | Py.FileNotFoundError _ | Py.OSError _ | Py.JSONDecodeError _ => true
  | Py.KeyError _ => false
  end.

(** The source file is absent or unreadable. *)
Definition unavailable (f : file_state) : bool :=
  match f with Holds _ => false | _ => true end.

(** The record of an entry that is kept: "a [DocumentRecord] with trimmed
    text and derived year". *)
Definition build (item : string * entry) : option DocumentRecord :=
  match text_field (snd item), PyDate.strptime (fst item) with
  | Some s, Some d =>
      if whitespace_only s then None
      else Some (mk_record (fst item) (PyDate.dt_year d) (PyStr.strip s))
  | _, _ => None
  end.

(** The working set: one record per entry that is not skipped, in the order
    of the collection. *)
Definition working_set (data : dataset) : list DocumentRecord :=
  flat_map (fun item => match build item with Some r => [r] | None => [] end) data.

(** The skip count of a collection. *)
Definition skip_count (data : dataset) : nat :=
  List.length (filter skipped_entry data).

(** The diagnostics of a collection. *)
Definition warnings (data : dataset) : list printed :=
  map (fun item => date_warning (fst item)) (filter warned_entry data).

End Spec.

(** What [load_dataset] prints on a readable source holding [data]. *)
Definition load_report (path : string) (data : dataset) : list printed :=
  ([Line ("Loading dataset from: " ++ path);
    Line ("Loaded " ++ PyStr.of_nat (List.length data) ++ " comics from dataset")]
   ++ Spec.warnings data
   ++ (if (0 <? Spec.skip_count data)%nat
       then [Line ("Warning: Skipped " ++ PyStr.of_nat (Spec.skip_count data)
                   ++ " entries due to missing data")]
       else [])
   ++ [Line ("Created DataFrame with "
             ++ PyStr.of_nat (List.length (Spec.working_set data)) ++ " comics")]
   ++ match Spec.working_set data with
      | [] => []
      | _ :: _ =>
          [Line ("Year range: "
                 ++ PyStr.of_Z (series_min (map year (Spec.working_set data)))
                 ++ " to "
                 ++ PyStr.of_Z (series_max (map year (Spec.working_set data))))]
      end)%list.

(** The row [compute_sentiment] builds for one document. *)
Definition scored (sentiment_analyzer : string -> ClassifierOutput)
    (d : DocumentRecord) : ScoredRecord :=
  let result := sentiment_analyzer (text d) in
  mk_scored d (label result) (score result)
            (signed_value (label result) (score result)).

(** The dict [score_row] appends for one document. *)
Definition sentiment_row (sentiment_analyzer : string -> ClassifierOutput)
    (d : DocumentRecord) : SentimentRow :=
  let result := sentiment_analyzer (text d) in
  mk_sentiment (label result) (score result)
               (signed_value (label result) (score result)).

(** The rows [aggregate_by_year] builds for a frame with columns. *)
Definition yearly_stats_of (df : DataFrame ScoredRecord) : DataFrame YearStats :=
  sort_values_year
    (map agg_group
       (map (fun y => (y, group_rows df y))
            (group_keys (map (fun r => year (doc r)) df)))).

(** Steps 1 to 3 of [main]. *)
Definition yearly_pipeline (sentiment_analyzer : string -> ClassifierOutput)
    (dataset_path : string) : Py.M (DataFrame YearStats) :=
  df <- load_dataset dataset_path ;;
  df <- compute_sentiment sentiment_analyzer df ;;
  aggregate_by_year df.

(** ** The console and the files of a run *)


(** The progress line after [done] rows out of [total]. *)
Definition progress_line (total done : nat) : printed :=
  Line ("  Processed " ++ PyStr.of_nat done ++ "/" ++ PyStr.of_nat total
        ++ " comics...").

(** What one turn of the scoring loop prints (lines 176-177). *)
Definition turn_output (total idx : nat) : list printed :=
  if ((idx + 1) mod 100 =? 0)%nat then [progress_line total (idx + 1)] else [].

(** The progress lines of a frame of [total] rows: one per full hundred. *)
Definition progress_lines (total : nat) : list printed :=
  map (fun k => progress_line total (100 * k)) (seq 1 (total / 100)).

(** What [compute_sentiment] prints for a frame of [total] rows. *)
Definition scoring_report (total : nat) : list printed :=
  ([Line (nl ++ "Initializing sentiment analyzer...");
    Line "(This may take a moment on first run as the model downloads)";
    Line "Sentiment analyzer ready. Processing comics...";
    Line "(This may take several minutes for thousands of comics)"]
   ++ progress_lines total
   ++ [Line ("Completed sentiment analysis for " ++ PyStr.of_nat total
             ++ " comics")])%list.



(** * Theorems *)

(** ** Strings *)

Section StripFacts.

Import PyStr.

Lemma lstrip_empty_iff (s : string) :
  lstrip s = EmptyString <-> Spec.whitespace_only s = true.
Proof.
  induction s as [|c s IH]; simpl.
  - tauto.
  - destruct (isspace c); simpl.
    + exact IH.
    + split; discriminate.
Qed.

Lemma rstrip_empty_iff (s : string) :
  rstrip s = EmptyString <-> Spec.whitespace_only s = true.
Proof.
  induction s as [|c s IH]; simpl.
  - tauto.
  - destruct (rstrip s) eqn:E.
    + destruct (isspace c); simpl.
      * split; intros _; [apply IH|]; reflexivity.
      * split; discriminate.
    + split; [discriminate|].
      intros H. apply andb_true_iff in H as [_ H].
      apply IH in H. discriminate.
Qed.

Lemma whitespace_only_lstrip (s : string) :
  Spec.whitespace_only (lstrip s) = Spec.whitespace_only s.
Proof.
  induction s as [|c s IH]; simpl; [reflexivity|].
  destruct (isspace c) eqn:E; simpl; [exact IH|].
  rewrite E. reflexivity.
Qed.

Lemma strip_empty_iff (s : string) :
  strip s = EmptyString <-> Spec.whitespace_only s = true.
Proof.
  unfold strip. rewrite rstrip_empty_iff, whitespace_only_lstrip. tauto.
Qed.


Lemma rstrip_first (s : string) (c : ascii) :
  first s = Some c -> isspace c = false -> first (rstrip s) = Some c.
Proof.
  destruct s as [|a s]; simpl; [discriminate|].
  intros H Hc. injection H as ->.
  destruct (rstrip s); [rewrite Hc|]; reflexivity.
Qed.








End StripFacts.

Lemma dict_get_text_field (e : entry) :
  dict_get e "transcript" "" =
  match Spec.text_field e with Some s => s | None => EmptyString end.
Proof.
  induction e as [|[k v] e IH]; simpl; [reflexivity|].
  destruct (String.eqb k "transcript"); [reflexivity | exact IH].
Qed.

Lemma lacks_text_whitespace_only (s : string) :
  lacks_text s = Spec.whitespace_only s.
Proof.
  unfold lacks_text.
  destruct (Spec.whitespace_only s) eqn:E.
  - apply strip_empty_iff in E. rewrite E. simpl. apply orb_true_r.
  - destruct s as [|c s]; [discriminate|]. simpl PyStr.truthy at 1. simpl.
    destruct (PyStr.strip (String c s)) eqn:Es; [|reflexivity].
    apply strip_empty_iff in Es. congruence.
Qed.

(** The test of line 83 is the specification's "absent, empty or
    whitespace-only". *)
Lemma lacks_text_no_text (e : entry) :
  lacks_text (dict_get e "transcript" "") = Spec.no_text e.
Proof.
  rewrite lacks_text_whitespace_only, dict_get_text_field.
  unfold Spec.no_text. destruct (Spec.text_field e); reflexivity.
Qed.

(** ** Running statements *)

Lemma world_eta (w : world) : mk_world (disk w) (stdout w) (written w) = w.
Proof. destruct w; reflexivity. Qed.


(** ** The loop of [load_dataset] *)

Lemma build_skipped (item : string * entry) :
  Spec.build item = None <-> Spec.skipped_entry item = true.
Proof.
  unfold Spec.build, Spec.skipped_entry, Spec.no_text, Spec.unparsable.
  destruct (Spec.text_field (snd item)) as [s|]; simpl.
  - destruct (PyDate.strptime (fst item)); simpl.
    + rewrite orb_false_r. destruct (Spec.whitespace_only s); split; congruence.
    + rewrite orb_true_r. tauto.
  - tauto.
Qed.

(** One turn of the loop, case by case. *)
Lemma load_entry_run (item : string * entry) (records : list DocumentRecord)
    (skipped : nat) (w : world) :
  load_entry item (records, skipped) w =
  match Spec.build item with
  | Some r => (Py.Ok ((records ++ [r])%list, skipped), w)
  | None =>
      (Py.Ok (records, S skipped),
       if Spec.warned_entry item
       then mk_world (disk w) (stdout w ++ [Spec.date_warning (fst item)])%list (written w)
       else w)
  end.
Proof.
  destruct item as [date_str e].
  unfold load_entry, Spec.build, Spec.warned_entry, Spec.unparsable.
  rewrite lacks_text_no_text. cbn [fst snd].
  rewrite dict_get_text_field.
  unfold Spec.no_text.
  destruct (Spec.text_field e) as [s|]; [|reflexivity].
  destruct (Spec.whitespace_only s); simpl.
  - destruct (PyDate.strptime date_str); reflexivity.
  - destruct (PyDate.strptime date_str); reflexivity.
Qed.

(** The whole loop: it never raises, keeps the working set of the
    specification, counts the skipped entries and prints one diagnostic per
    entry that has text and an unparsable key. *)
Lemma load_loop_run (data : dataset) :
  forall (records : list DocumentRecord) (skipped : nat) (w : world),
    Py.for_each data load_entry (records, skipped) w =
    (Py.Ok ((records ++ Spec.working_set data)%list,
            (skipped + Spec.skip_count data)%nat),
     mk_world (disk w) (stdout w ++ Spec.warnings data)%list (written w)).
Proof.
  induction data as [|item data IH]; intros records skipped w.
  - simpl. unfold Py.ret, Spec.skip_count, Spec.warnings. simpl.
    rewrite !app_nil_r, Nat.add_0_r, world_eta. reflexivity.
  - cbn [Py.for_each]. unfold Py.bind. rewrite load_entry_run.
    unfold Spec.working_set, Spec.skip_count, Spec.warnings.
    cbn [flat_map filter].
    destruct (Spec.build item) as [r|] eqn:Eb.
    + assert (Hs : Spec.skipped_entry item = false).
      { destruct (Spec.skipped_entry item) eqn:E; [|reflexivity].
        apply build_skipped in E. congruence. }
      assert (Hw : Spec.warned_entry item = false).
      { unfold Spec.warned_entry. unfold Spec.skipped_entry in Hs.
        apply orb_false_iff in Hs as [_ ->]. apply andb_false_r. }
      rewrite Hs, Hw, IH. unfold Spec.working_set, Spec.skip_count, Spec.warnings.
      rewrite <- app_assoc. reflexivity.
    + apply build_skipped in Eb. rewrite Eb, IH.
      unfold Spec.working_set, Spec.skip_count, Spec.warnings.
      destruct (Spec.warned_entry item); cbn [map List.length app disk stdout written].
      * rewrite <- app_assoc, Nat.add_succ_r. reflexivity.
      * rewrite Nat.add_succ_r. reflexivity.
Qed.

(** ** [load_dataset] *)

Ltac py_unfold :=
  unfold Py.bind, Py.print, Py.emit, Py.write, Py.exists_, Py.json_load,
    Py.raise, Py.ret, Py.column; cbn [disk stdout written fst snd].

(** The loader on a readable source: the working set of the specification,
    unless it is empty, in which case the year-range line raises; the console
    gets [load_report] and nothing else changes. *)
Lemma load_dataset_holds (path : string) (data : dataset) (w : world) :
  disk w path = Holds data ->
  load_dataset path w =
    (match Spec.working_set data with
     | [] => Py.Raise (Py.KeyError "year")
     | _ :: _ => Py.Ok (Spec.working_set data)
     end,
     mk_world (disk w) (stdout w ++ load_report path data)%list (written w)).
Proof.
  intros Hd. unfold load_dataset, load_report. py_unfold. rewrite Hd. cbn [negb].
  py_unfold. rewrite Hd. rewrite load_loop_run. py_unfold. cbn [app].
  rewrite Nat.add_0_l.
  destruct (0 <? Spec.skip_count data)%nat; py_unfold;
    destruct (Spec.working_set data) as [|r rs]; py_unfold;
    rewrite <- ?app_assoc; reflexivity.
Qed.


(** ** [compute_sentiment] *)

Section ComputeSentiment.

Variable sentiment_analyzer : string -> ClassifierOutput.

Lemma score_loop_run (total : nat) (items : list (nat * DocumentRecord)) :
  forall (results : list SentimentRow) (w : world),
  exists w',
    Py.for_each items (score_row sentiment_analyzer total) results w =
      (Py.Ok (results ++ map (fun it => (sentiment_row sentiment_analyzer) (snd it)) items)%list, w')
    /\ disk w' = disk w /\ written w' = written w
    /\ exists out, stdout w' = (stdout w ++ out)%list.
Proof.
  induction items as [|[idx row] items IH]; intros results w.
  - exists w. cbn. rewrite app_nil_r. repeat split; try reflexivity.
    exists []. now rewrite app_nil_r.
  - cbn [Py.for_each]. unfold Py.bind at 1. unfold score_row at 1.
    destruct ((idx + 1) mod 100 =? 0)%nat; py_unfold.
    + match goal with |- context [Py.for_each items _ ?r ?w0] =>
        destruct (IH r w0) as (w' & Hrun & Hd & Hw & out & Ho) end.
      exists w'. rewrite Hrun. cbn [map snd]. rewrite <- app_assoc.
      cbn [disk written stdout] in *. repeat split; try assumption.
      eexists. rewrite Ho, <- app_assoc. reflexivity.
    + match goal with |- context [Py.for_each items _ ?r ?w0] =>
        destruct (IH r w0) as (w' & Hrun & Hd & Hw & out & Ho) end.
      exists w'. rewrite Hrun. cbn [map snd]. rewrite <- app_assoc.
      repeat split; try assumption. eexists; exact Ho.
Qed.

Lemma iterrows_rows {row} (df : DataFrame row) : map snd (iterrows df) = df.
Proof.
  unfold iterrows. generalize 0%nat.
  induction df as [|r df IH]; intros start; cbn; [reflexivity|].
  now rewrite IH.
Qed.

Lemma concat_columns_scored (df : DataFrame DocumentRecord) :
  concat_columns df (map (sentiment_row sentiment_analyzer) df) = map (scored sentiment_analyzer) df.
Proof.
  unfold concat_columns.
  induction df as [|d df IH]; cbn; [reflexivity|].
  now rewrite IH.
Qed.

(** [compute_sentiment] never raises, only prints, and returns one scored row
    per row of its argument, in the same order. *)
Lemma compute_sentiment_run (df : DataFrame DocumentRecord) (w : world) :
  exists w',
    compute_sentiment sentiment_analyzer df w =
      (Py.Ok (map (scored sentiment_analyzer) df), w')
    /\ disk w' = disk w /\ written w' = written w
    /\ exists out, stdout w' = (stdout w ++ out)%list.
Proof.
  unfold compute_sentiment. py_unfold.
  match goal with |- context [Py.for_each ?items _ ?r ?w0] =>
    destruct (score_loop_run (List.length df) items r w0)
      as (w' & Hrun & Hd & Hw & out & Ho) end.
  rewrite Hrun. cbn [app].
  eexists. split.
  - rewrite <- (map_map snd (sentiment_row sentiment_analyzer)), iterrows_rows, concat_columns_scored.
    reflexivity.
  - cbn [disk written stdout] in *. repeat split; try assumption.
    eexists. rewrite Ho, <- !app_assoc. reflexivity.
Qed.

End ComputeSentiment.

(** ** Group keys and sorting *)

Lemma insert_key_In (y x : Z) (keys : list Z) :
  In x (insert_key y keys) <-> x = y \/ In x keys.
Proof.
  induction keys as [|k keys IH]; simpl.
  - intuition.
  - destruct (Z.ltb_spec y k); [simpl; intuition|].
    destruct (Z.eqb_spec y k); simpl.
    + subst. intuition.
    + rewrite IH. intuition.
Qed.

Lemma insert_key_sorted (y : Z) (keys : list Z) :
  StronglySorted Z.lt keys -> StronglySorted Z.lt (insert_key y keys).
Proof.
  induction 1 as [|k keys Hs IH Hk]; simpl.
  - repeat constructor.
  - destruct (Z.ltb_spec y k).
    + constructor; [constructor; assumption|].
      constructor; [assumption|].
      eapply Forall_impl; [|exact Hk]. simpl. lia.
    + destruct (Z.eqb_spec y k); [constructor; assumption|].
      constructor; [exact IH|].
      apply Forall_forall. intros x Hx.
      apply insert_key_In in Hx as [->|Hx]; [lia|].
      rewrite Forall_forall in Hk. auto.
Qed.

Lemma group_keys_In (years : list Z) (y : Z) :
  In y (group_keys years) <-> In y years.
Proof.
  induction years as [|a years IH]; simpl; [tauto|].
  rewrite insert_key_In, IH. intuition.
Qed.

Lemma group_keys_sorted (years : list Z) : StronglySorted Z.lt (group_keys years).
Proof.
  induction years as [|a years IH]; simpl.
  - constructor.
  - apply insert_key_sorted, IH.
Qed.


Lemma strictly_sorted_NoDup (l : list Z) : StronglySorted Z.lt l -> NoDup l.
Proof.
  induction 1 as [|a l Hs IH Ha]; constructor; [|exact IH].
  intros Hin. rewrite Forall_forall in Ha. specialize (Ha _ Hin). lia.
Qed.

(** [sort_values('year')] leaves a frame with ascending years as it is. *)
Lemma sort_values_year_sorted (stats : DataFrame YearStats) :
  StronglySorted Z.lt (map stats_year stats) -> sort_values_year stats = stats.
Proof.
  induction stats as [|a stats IH]; simpl; [reflexivity|].
  intros H. apply StronglySorted_inv in H as [Hs Ha].
  unfold sort_values_year in *. simpl. rewrite (IH Hs).
  destruct stats as [|b stats]; [reflexivity|]. simpl.
  apply Forall_inv in Ha. simpl in Ha.
  destruct (Z.leb_spec (stats_year a) (stats_year b)); [reflexivity | lia].
Qed.

Lemma agg_group_years (df : DataFrame ScoredRecord) (keys : list Z) :
  map stats_year (map agg_group (map (fun y => (y, group_rows df y)) keys)) = keys.
Proof.
  induction keys as [|k keys IH]; simpl; [reflexivity|]. now rewrite IH.
Qed.

(** The rows of [yearly_stats]: one per group key, in key order. *)
Lemma yearly_stats_of_eq (df : DataFrame ScoredRecord) :
  yearly_stats_of df =
  map (fun y => mk_stats y (series_mean (map sentiment_value (group_rows df y)))
                         (List.length (group_rows df y)))
      (group_keys (map (fun r => year (doc r)) df)).
Proof.
  unfold yearly_stats_of.
  rewrite sort_values_year_sorted
    by (rewrite agg_group_years; apply group_keys_sorted).
  rewrite map_map. apply map_ext. intros y.
  unfold agg_group. cbn [fst snd]. now rewrite length_map.
Qed.


(** [aggregate_by_year] only prints; it raises on the frame without columns
    and returns [yearly_stats_of] on every other frame. *)
Lemma aggregate_by_year_run (df : DataFrame ScoredRecord) (w : world) :
  exists w',
    aggregate_by_year df w =
      (match df with
       | [] => Py.Raise (Py.KeyError "year")
       | _ :: _ => Py.Ok (yearly_stats_of df)
       end, w')
    /\ disk w' = disk w /\ written w' = written w
    /\ exists out, stdout w' = (stdout w ++ out)%list.
Proof.
  unfold aggregate_by_year, groupby_year. py_unfold.
  destruct df as [|r df]; py_unfold;
    (eexists; split; [reflexivity|]; cbn [disk stdout written];
     split; [reflexivity|]; split; [reflexivity|];
     rewrite <- ?app_assoc; eexists; reflexivity).
Qed.

(** ** Sums of scores

    [Qplus] does not reduce fractions, so it is commutative and associative
    up to Leibniz equality, not only up to [==]. *)

Lemma Qplus_comm_eq (a b : Q) : Qplus a b = Qplus b a.
Proof.
  destruct a as [n d], b as [m e]. unfold Qplus. cbn [Qnum Qden].
  f_equal; [ring | apply Pos.mul_comm].
Qed.

Lemma Qplus_assoc_eq (a b c : Q) : Qplus a (Qplus b c) = Qplus (Qplus a b) c.
Proof.
  destruct a as [n d], b as [m e], c as [k f]. unfold Qplus. cbn [Qnum Qden].
  f_equal; [rewrite !Pos2Z.inj_mul; ring | apply Pos.mul_assoc].
Qed.

Lemma Qplus_0_l_eq (a : Q) : Qplus (0#1) a = a.
Proof.
  destruct a as [n d]. unfold Qplus. cbn [Qnum Qden].
  f_equal. ring.
Qed.

Lemma fold_left_Qplus (values : list Q) :
  forall a, fold_left Qplus values a = Qplus a (fold_right Qplus (0#1) values).
Proof.
  induction values as [|v values IH]; intros a; simpl.
  - now rewrite Qplus_comm_eq, Qplus_0_l_eq.
  - now rewrite IH, Qplus_assoc_eq.
Qed.

Lemma series_sum_fold_right (values : list Q) :
  series_sum values = fold_right Qplus (0#1) values.
Proof. unfold series_sum. now rewrite fold_left_Qplus, Qplus_0_l_eq. Qed.




(** The rows of a group, counted and summed the way the specification
    words it. *)
Lemma group_rows_length (df : DataFrame ScoredRecord) (y : Z) :
  List.length (group_rows df y) = Spec.year_count df y.
Proof.
  unfold group_rows, Spec.year_count.
  induction df as [|r df IH]; simpl; [reflexivity|].
  destruct (Z.eqb_spec (year (doc r)) y) as [E|E];
    destruct (Z.eq_dec (year (doc r)) y); try contradiction; simpl; now rewrite IH.
Qed.



(** The mean of a non-empty column times its length is its sum. *)
Lemma series_mean_spec (values : list Q) :
  values <> [] ->
  series_mean values * inject_Z (Z.of_nat (List.length values))
  == fold_right Qplus (0#1) values.
Proof.
  intros Hne. unfold series_mean. rewrite series_sum_fold_right.
  unfold Qdiv. rewrite <- Qmult_assoc, (Qmult_comm (/ _)), Qmult_inv_r.
  - apply Qmult_1_r.
  - destruct values as [|v values]; [congruence|].
    cbn [List.length]. unfold inject_Z, Qeq. cbn [Qnum Qden]. lia.
Qed.

(** ** The sentiment normaliser *)

Lemma compute_sentiment_outcome (sentiment_analyzer : string -> ClassifierOutput)
    (df : DataFrame DocumentRecord) (w : world) :
  outcome (compute_sentiment sentiment_analyzer df) w =
  Py.Ok (map (scored sentiment_analyzer) df).
Proof.
  unfold outcome.
  destruct (compute_sentiment_run sentiment_analyzer df w) as (w' & -> & _).
  reflexivity.
Qed.

Lemma signed_value_other (label : string) (score : Q) :
  label <> "POSITIVE" -> signed_value label score = Qopp score.
Proof.
  intros H. unfold signed_value.
  destruct (String.eqb_spec label "POSITIVE"); [contradiction | reflexivity].
Qed.

(** C1. Every row returned by [compute_sentiment] carries the label and the
    score of the classifier's answer for its text, and a [sentiment_value]
    equal to the score when the label is POSITIVE and to its opposite when the
    label is NEGATIVE. For an answer within the classifier's contract the
    magnitude of [sentiment_value] is therefore the score and its sign is
    that of the label. *)
Theorem C1_signed_sentiment (sentiment_analyzer : string -> ClassifierOutput)
    (df : DataFrame DocumentRecord) (w : world) :
  exists rows,
    outcome (compute_sentiment sentiment_analyzer df) w = Py.Ok rows
    /\ map doc rows = df
    /\ Forall (fun r =>
         let out := sentiment_analyzer (text (doc r)) in
         sentiment_label r = label out
         /\ sentiment_score r = score out
         /\ (label out = "POSITIVE" -> sentiment_value r = score out)
         /\ (label out = "NEGATIVE" -> sentiment_value r = Qopp (score out))
         /\ (Spec.in_contract out = true ->
             (Qabs (sentiment_value r) == score out)%Q
             /\ (label out = "POSITIVE" -> (0 <= sentiment_value r)%Q)
             /\ (label out = "NEGATIVE" -> (sentiment_value r <= 0)%Q))
         /\ ((0 < score out)%Q ->
             (label out = "POSITIVE" -> (0 < sentiment_value r)%Q)
             /\ (label out = "NEGATIVE" -> (sentiment_value r < 0)%Q))) rows.
Proof.
  exists (map (scored sentiment_analyzer) df).
  split; [apply compute_sentiment_outcome|].
  split; [rewrite map_map; apply map_id|].
  apply Forall_forall. intros r Hr.
  apply in_map_iff in Hr as (d & <- & _).
  unfold scored. cbn [doc sentiment_label sentiment_score sentiment_value].
  set (out := sentiment_analyzer (text d)).
  split; [reflexivity|]. split; [reflexivity|].
  split; [intros ->; reflexivity|].
  split; [intros ->; reflexivity|].
  split.
  - intros Hc. unfold Spec.in_contract in Hc.
    apply andb_true_iff in Hc as [Hc _].
    apply andb_true_iff in Hc as [Hl H0].
    apply Qle_bool_iff in H0.
    split; [|split].
    + unfold signed_value. destruct (String.eqb (label out) "POSITIVE").
      * now apply Qabs_pos.
      * rewrite Qabs_opp. now apply Qabs_pos.
    + intros ->. exact H0.
    + intros ->. cbn. now apply (Qopp_le_compat 0).
  - intros Hpos. split; intros ->; cbn; [exact Hpos|].
    now apply (Qopp_lt_compat 0).
Qed.

(** C4 as stated, at a concrete answer outside the contract: the label is
    NEUTRAL and the confidence is 3/2, yet [compute_sentiment] returns a
    scored row, with [sentiment_value] -3/2, and raises nothing. *)
Lemma C4_counterexample :
  Spec.in_contract (mk_output "NEUTRAL" (3#2)) = false
  /\ outcome (compute_sentiment (fun _ => mk_output "NEUTRAL" (3#2))
                [mk_record "1989-04-16" 1989 "Good morning"])
             (fresh_world "data.json" Missing)
     = Py.Ok [mk_scored (mk_record "1989-04-16" 1989 "Good morning")
                        "NEUTRAL" (3#2) (-3#2)]
  /\ ~ (exists e,
          outcome (compute_sentiment (fun _ => mk_output "NEUTRAL" (3#2))
                     [mk_record "1989-04-16" 1989 "Good morning"])
                  (fresh_world "data.json" Missing)
          = Py.Raise e).
Proof.
  split; [reflexivity|]. split; [reflexivity|].
  intros [e He]. discriminate He.
Qed.

(** Each half of the contract on its own: a POSITIVE answer with confidence
    3/2 and a NEUTRAL answer with confidence 1/2 are both turned into rows. *)
Example out_of_contract_answers :
  Spec.in_contract (mk_output "POSITIVE" (3#2)) = false
  /\ Spec.in_contract (mk_output "NEUTRAL" (1#2)) = false
  /\ outcome (compute_sentiment
                (fun t => if String.eqb t "a" then mk_output "POSITIVE" (3#2)
                          else mk_output "NEUTRAL" (1#2))
                [mk_record "1989-04-16" 1989 "a"; mk_record "1989-04-17" 1989 "b"])
             (fresh_world "data.json" Missing)
     = Py.Ok [mk_scored (mk_record "1989-04-16" 1989 "a") "POSITIVE" (3#2) (3#2);
              mk_scored (mk_record "1989-04-17" 1989 "b") "NEUTRAL" (1#2) (-1#2)].
Proof. repeat split. Qed.

(** C4, amended. [compute_sentiment] validates nothing and never raises:
    whatever the classifier answers, each row keeps the label and the score
    as given, and every label other than POSITIVE, inside the contract or
    not, yields the opposite of the score. *)
Theorem C4_no_validation (sentiment_analyzer : string -> ClassifierOutput)
    (df : DataFrame DocumentRecord) (w : world) :
  exists rows,
    outcome (compute_sentiment sentiment_analyzer df) w = Py.Ok rows
    /\ List.length rows = List.length df
    /\ Forall (fun r =>
         let out := sentiment_analyzer (text (doc r)) in
         sentiment_label r = label out
         /\ sentiment_score r = score out
         /\ (label out = "POSITIVE" -> sentiment_value r = score out)
         /\ (label out <> "POSITIVE" -> sentiment_value r = Qopp (score out))) rows.
Proof.
  exists (map (scored sentiment_analyzer) df).
  split; [apply compute_sentiment_outcome|].
  split; [apply length_map|].
  apply Forall_forall. intros r Hr.
  apply in_map_iff in Hr as (d & <- & _).
  unfold scored. cbn [doc sentiment_label sentiment_score sentiment_value].
  repeat split.
  - intros ->. reflexivity.
  - apply signed_value_other.
Qed.

(** C9. The scored row of a document depends on the document and on the
    classifier's answer for its text, and on nothing else: two runs, on
    different frames, at different positions, after different console
    histories and even with different classifiers, produce the same row for
    the same document as soon as the classifiers agree on its text. *)
Theorem C9_normalize_deterministic
    (analyzer1 analyzer2 : string -> ClassifierOutput)
    (df1 df2 : DataFrame DocumentRecord) (w1 w2 : world) (i j : nat)
    (d : DocumentRecord) :
  nth_error df1 i = Some d ->
  nth_error df2 j = Some d ->
  analyzer1 (text d) = analyzer2 (text d) ->
  exists s,
    nth_error (emitted (outcome (compute_sentiment analyzer1 df1) w1)) i = Some s
    /\ nth_error (emitted (outcome (compute_sentiment analyzer2 df2) w2)) j = Some s
    /\ s = mk_scored d (label (analyzer1 (text d))) (score (analyzer1 (text d)))
             (signed_value (label (analyzer1 (text d))) (score (analyzer1 (text d)))).
Proof.
  intros H1 H2 Ha. exists (scored analyzer1 d).
  rewrite !compute_sentiment_outcome. cbn [emitted].
  split; [|split].
  - now apply map_nth_error.
  - replace (scored analyzer1 d) with (scored analyzer2 d)
      by (unfold scored; now rewrite Ha).
    now apply map_nth_error.
  - reflexivity.
Qed.

Lemma C9_witness :
  exists s,
    nth_error (emitted (outcome
      (compute_sentiment (fun _ => mk_output "POSITIVE" (9#10))
         [mk_record "1989-04-16" 1989 "Good morning"])
      (fresh_world "data.json" Missing))) 0 = Some s
    /\ nth_error (emitted (outcome
      (compute_sentiment
         (fun t => if String.eqb t "Bad day" then mk_output "NEGATIVE" (8#10)
                   else mk_output "POSITIVE" (9#10))
         [mk_record "1990-01-01" 1990 "Bad day";
          mk_record "1989-04-16" 1989 "Good morning"])
      (mk_world (fun _ => Missing) [Line "earlier output"] []))) 1 = Some s
    /\ s = mk_scored (mk_record "1989-04-16" 1989 "Good morning")
                     "POSITIVE" (9#10) (9#10).
Proof.
  apply (C9_normalize_deterministic
           (fun _ => mk_output "POSITIVE" (9#10))
           (fun t => if String.eqb t "Bad day" then mk_output "NEGATIVE" (8#10)
                     else mk_output "POSITIVE" (9#10))
           [mk_record "1989-04-16" 1989 "Good morning"]
           [mk_record "1990-01-01" 1990 "Bad day";
            mk_record "1989-04-16" 1989 "Good morning"]
           (fresh_world "data.json" Missing)
           (mk_world (fun _ => Missing) [Line "earlier output"] [])
           0%nat 1%nat
           (mk_record "1989-04-16" 1989 "Good morning"));
    reflexivity.
Defined.

(** ** The loader *)






(** Steps 1 to 3 on a readable source, as a function of its working set. *)
Lemma yearly_pipeline_outcome (sentiment_analyzer : string -> ClassifierOutput)
    (path : string) (data : dataset) (w : world) :
  disk w path = Holds data ->
  outcome (yearly_pipeline sentiment_analyzer path) w =
  match Spec.working_set data with
  | [] => Py.Raise (Py.KeyError "year")
  | _ :: _ =>
      Py.Ok (yearly_stats_of (map (scored sentiment_analyzer) (Spec.working_set data)))
  end.
Proof.
  intros Hd. unfold outcome, yearly_pipeline, Py.bind.
  rewrite (load_dataset_holds path data w Hd).
  destruct (Spec.working_set data) as [|r rs]; [reflexivity|].
  match goal with |- context [compute_sentiment _ _ ?w1] =>
    destruct (compute_sentiment_run sentiment_analyzer (r :: rs) w1) as (w2 & -> & _)
  end.
  destruct (aggregate_by_year_run (map (scored sentiment_analyzer) (r :: rs)) w2)
    as (w3 & -> & _).
  reflexivity.
Qed.





Lemma load_dataset_outcome (path : string) (data : dataset) (w : world) :
  disk w path = Holds data ->
  outcome (load_dataset path) w =
  match Spec.working_set data with
  | [] => Py.Raise (Py.KeyError "year")
  | _ :: _ => Py.Ok (Spec.working_set data)
  end.
Proof.
  intros Hd. unfold outcome.
  rewrite (load_dataset_holds path data w Hd). reflexivity.
Qed.



(** ** The year aggregator *)

Lemma aggregate_by_year_outcome (df : DataFrame ScoredRecord) (w : world) :
  outcome (aggregate_by_year df) w =
  match df with
  | [] => Py.Raise (Py.KeyError "year")
  | _ :: _ => Py.Ok (yearly_stats_of df)
  end.
Proof.
  unfold outcome.
  destruct (aggregate_by_year_run df w) as (w' & -> & _). reflexivity.
Qed.



(** C5 on the code: the frame built from no rows has no columns, so
    [groupby('year')] raises [KeyError] on it, and so does the year-range line
    of [load_dataset] on a collection without entries; the run ends with
    that error instead of an empty table. *)
Theorem C5_empty_frame_raises (w : world) :
  outcome (aggregate_by_year []) w = Py.Raise (Py.KeyError "year")
  /\ (forall sentiment_analyzer path,
        outcome (load_dataset path) (fresh_world path (Holds []))
        = Py.Raise (Py.KeyError "year")
        /\ outcome (yearly_pipeline sentiment_analyzer path)
                   (fresh_world path (Holds []))
           = Py.Raise (Py.KeyError "year")).
Proof.
  split; [apply aggregate_by_year_outcome|].
  intros sentiment_analyzer path.
  assert (Hd : disk (fresh_world path (Holds [])) path = Holds []).
  { unfold fresh_world. cbn [disk]. now rewrite String.eqb_refl. }
  split.
  - now rewrite (load_dataset_outcome path [] _ Hd).
  - now rewrite (yearly_pipeline_outcome _ path [] _ Hd).
Qed.



(** ** The orchestration *)

(** C8. When the dataset file is missing, cannot be opened or is not JSON,
    [load_dataset] raises a data-source error and [main] ends with that very
    error: after the banner and the loading line it prints the error and
    re-raises, so that no record is built, no classifier call is made and no
    file is written. *)
Theorem C8_unavailable_source (sentiment_analyzer : string -> ClassifierOutput)
    (DATASET_PATH CSV_OUTPUT PNG_OUTPUT : string) (w : world) :
  Spec.unavailable (disk w DATASET_PATH) = true ->
  exists e w',
    main sentiment_analyzer DATASET_PATH CSV_OUTPUT PNG_OUTPUT w = (Py.Raise e, w')
    /\ outcome (load_dataset DATASET_PATH) w = Py.Raise e
    /\ Spec.DataSourceError e = true
    /\ match disk w DATASET_PATH with
       | Missing => exists msg, e = Py.FileNotFoundError msg
       | Unreadable reason => e = Py.OSError reason
       | Malformed reason => e = Py.JSONDecodeError reason
       | Holds _ => False
       end
    /\ written w' = written w
    /\ disk w' = disk w
    /\ stdout w' =
       (stdout w
        ++ [Line (PyStr.repeat "=" 70);
            Line "Year-by-Year Sentiment Analysis for Dilbert Transcripts";
            Line (PyStr.repeat "=" 70);
            Line ("Loading dataset from: " ++ DATASET_PATH);
            Line (nl ++ "Error: " ++ Py.str e)])%list.
Proof.
  intros Hu.
  unfold main, main_body, Py.try_except, outcome, load_dataset. py_unfold.
  destruct (disk w DATASET_PATH) eqn:Hd; try discriminate;
    cbn [negb]; py_unfold; rewrite ?Hd;
    eexists; eexists; (split; [reflexivity|]); cbn [disk stdout written fst];
    (split; [reflexivity|]); (split; [reflexivity|]);
    (split; [try reflexivity; eexists; reflexivity|]);
    (split; [reflexivity|]); (split; [reflexivity|]);
    rewrite <- !app_assoc; reflexivity.
Qed.

Lemma C8_witness :
  exists e w',
    main (fun _ => mk_output "POSITIVE" (9#10)) "data.json" "out.csv" "out.png"
         (fresh_world "data.json" Missing) = (Py.Raise e, w')
    /\ outcome (load_dataset "data.json") (fresh_world "data.json" Missing)
       = Py.Raise e
    /\ Spec.DataSourceError e = true
    /\ (exists msg, e = Py.FileNotFoundError msg)
    /\ written w' = []
    /\ disk w' = disk (fresh_world "data.json" Missing)
    /\ stdout w' =
       [Line (PyStr.repeat "=" 70);
        Line "Year-by-Year Sentiment Analysis for Dilbert Transcripts";
        Line (PyStr.repeat "=" 70);
        Line "Loading dataset from: data.json";
        Line (nl ++ "Error: " ++ Py.str e)].
Proof.
  apply (C8_unavailable_source (fun _ => mk_output "POSITIVE" (9#10))
           "data.json" "out.csv" "out.png" (fresh_world "data.json" Missing)).
  reflexivity.
Defined.

(** ** The scenarios of the specification, run on the model *)

Example strptime_1989_04_16 :
  PyDate.strptime "1989-04-16" = Some (PyDate.mk_datetime 1989 4 16).
Proof. reflexivity. Qed.

Example strptime_single_digits :
  PyDate.strptime "1989-4-6" = Some (PyDate.mk_datetime 1989 4 6).
Proof. reflexivity. Qed.

Example strptime_not_a_date : PyDate.strptime "not-a-date" = None.
Proof. reflexivity. Qed.

Example strptime_february_30 : PyDate.strptime "1990-02-30" = None.
Proof. reflexivity. Qed.

Example strptime_trailing_data : PyDate.strptime "1989-04-160" = None.
Proof. reflexivity. Qed.

Example strip_bad_day : PyStr.strip "  Bad day " = "Bad day".
Proof. reflexivity. Qed.

(** Three entries, one of them blank: two records, one skip, two years. *)
Example scenario_three_entries :
  outcome
    (yearly_pipeline
       (fun t => if String.eqb t "Good morning" then mk_output "POSITIVE" (9#10)
                 else mk_output "NEGATIVE" (8#10))
       "data.json")
    (fresh_world "data.json"
       (Holds [("1989-04-16", [("transcript", "Good morning")]);
               ("1989-06-01", [("transcript", "  ")]);
               ("1990-01-01", [("transcript", "Bad day")])]))
  = Py.Ok [mk_stats 1989 (9#10) 1; mk_stats 1990 (-8#10) 1].
Proof. reflexivity. Qed.

(** Two documents of one year, +0.6 and -0.2: mean 0.2, count 2. *)
Example scenario_same_year :
  exists mean,
    outcome
      (aggregate_by_year
         [mk_scored (mk_record "1989-04-16" 1989 "a") "POSITIVE" (6#10) (6#10);
          mk_scored (mk_record "1989-04-17" 1989 "b") "NEGATIVE" (2#10) (-2#10)])
      (fresh_world "data.json" Missing)
    = Py.Ok [mk_stats 1989 mean 2]
    /\ (mean == 2#10)%Q.
Proof. eexists. split; reflexivity. Qed.

(** A malformed key next to a good entry: skipped with a diagnostic, and
    absent from the aggregates. *)
Example scenario_malformed_key :
  outcome
    (yearly_pipeline (fun _ => mk_output "POSITIVE" (9#10)) "data.json")
    (fresh_world "data.json"
       (Holds [("not-a-date", [("transcript", "Hello")]);
               ("1989-04-16", [("transcript", "Good morning")])]))
  = Py.Ok [mk_stats 1989 (9#10) 1]
  /\ In (Line "Warning: Could not parse date 'not-a-date', skipping")
        (stdout (snd (load_dataset "data.json"
           (fresh_world "data.json"
              (Holds [("not-a-date", [("transcript", "Hello")]);
                      ("1989-04-16", [("transcript", "Good morning")])]))))).
Proof. split; [reflexivity|]. cbn. right. right. left. reflexivity. Qed.

(** A collection whose only entry is skipped: the run ends in [KeyError]. *)
Example scenario_all_skipped :
  main (fun _ => mk_output "POSITIVE" (9#10)) "data.json" "out.csv" "out.png"
       (fresh_world "data.json" (Holds [("1989-06-01", [("transcript", "  ")])]))
  = (Py.Raise (Py.KeyError "year"),
     mk_world (disk (fresh_world "data.json"
                       (Holds [("1989-06-01", [("transcript", "  ")])])))
       [Line (PyStr.repeat "=" 70);
        Line "Year-by-Year Sentiment Analysis for Dilbert Transcripts";
        Line (PyStr.repeat "=" 70);
        Line "Loading dataset from: data.json";
        Line "Loaded 1 comics from dataset";
        Line "Warning: Skipped 1 entries due to missing data";
        Line "Created DataFrame with 0 comics";
        Line (nl ++ "Error: 'year'")]
       []).
Proof. reflexivity. Qed.

(** * Further properties of the script *)

(** ** The console of [compute_sentiment] *)

Section ProgressLines.

Variable sentiment_analyzer : string -> ClassifierOutput.
Variable total : nat.

Lemma score_loop_console (items : list (nat * DocumentRecord)) :
  forall (results : list SentimentRow) (w : world),
    Py.for_each items (score_row sentiment_analyzer total) results w =
    (Py.Ok (results ++ map (fun it => sentiment_row sentiment_analyzer (snd it)) items)%list,
     mk_world (disk w)
              (stdout w ++ flat_map (fun it => turn_output total (fst it)) items)%list
              (written w)).
Proof.
  induction items as [|[idx row] items IH]; intros results w.
  - cbn. rewrite !app_nil_r, world_eta. reflexivity.
  - cbn [Py.for_each]. unfold Py.bind at 1. unfold score_row at 1.
    cbn [flat_map map fst snd]. unfold turn_output at 1.
    destruct ((idx + 1) mod 100 =? 0)%nat; py_unfold; rewrite IH;
      cbn [disk stdout written]; rewrite <- !app_assoc; reflexivity.
Qed.

Lemma flat_map_iterrows {row} (g : nat -> list printed) (df : DataFrame row) :
  flat_map (fun it => g (fst it)) (iterrows df)
  = flat_map g (seq 0 (List.length df)).
Proof.
  unfold iterrows. generalize 0%nat.
  induction df as [|r df IH]; intros start; cbn; [reflexivity|].
  now rewrite IH.
Qed.

(** A progress line is due after every hundredth row and after no other. *)
Lemma turn_output_hundreds (n : nat) :
  flat_map (turn_output total) (seq 0 n)
  = map (fun k => progress_line total (100 * k)) (seq 1 (n / 100)).
Proof.
  induction n as [|n IH]; [reflexivity|].
  rewrite seq_S, flat_map_app, IH. cbn [flat_map plus]. rewrite app_nil_r.
  unfold turn_output. rewrite Nat.add_1_r.
  assert (Hn := Nat.div_mod_eq n 100).
  assert (Hr : (n mod 100 < 100)%nat) by (apply Nat.mod_upper_bound; lia).
  assert (Hn' := Nat.div_mod_eq (S n) 100).
  assert (Hr' : (S n mod 100 < 100)%nat) by (apply Nat.mod_upper_bound; lia).
  destruct (Nat.eqb_spec (S n mod 100) 0) as [E|E].
  - replace (S n / 100)%nat with (S (n / 100)) by lia.
    rewrite seq_S, map_app. cbn [map].
    replace (100 * (1 + n / 100))%nat with (S n) by lia.
    reflexivity.
  - replace (S n / 100)%nat with (n / 100)%nat by lia.
    now rewrite app_nil_r.
Qed.

End ProgressLines.

(** The whole run of [compute_sentiment]: its rows, its console, and nothing
    else. *)
Lemma compute_sentiment_console (sentiment_analyzer : string -> ClassifierOutput)
    (df : DataFrame DocumentRecord) (w : world) :
  compute_sentiment sentiment_analyzer df w =
  (Py.Ok (map (scored sentiment_analyzer) df),
   mk_world (disk w) (stdout w ++ scoring_report (List.length df))%list (written w)).
Proof.
  unfold compute_sentiment, scoring_report, progress_lines. py_unfold.
  rewrite score_loop_console. py_unfold. cbn [app].
  rewrite <- (map_map snd (sentiment_row sentiment_analyzer)), iterrows_rows,
    concat_columns_scored.
  rewrite (flat_map_iterrows (turn_output (List.length df))), turn_output_hundreds.
  rewrite <- !app_assoc. reflexivity.
Qed.

(** X8. [compute_sentiment] prints, between its four opening lines and its
    closing line, one progress line per full hundred of rows and no other:
    the k-th reads "Processed 100k/n comics...", so a frame of fewer than a
    hundred rows gets none; the disk and the written files are left alone. *)
Theorem X8_progress_lines (sentiment_analyzer : string -> ClassifierOutput)
    (df : DataFrame DocumentRecord) (w : world) :
  let n := List.length df in
  let w' := snd (compute_sentiment sentiment_analyzer df w) in
  stdout w' =
    (stdout w
     ++ [Line (nl ++ "Initializing sentiment analyzer...");
         Line "(This may take a moment on first run as the model downloads)";
         Line "Sentiment analyzer ready. Processing comics...";
         Line "(This may take several minutes for thousands of comics)"]
     ++ map (fun k => Line ("  Processed " ++ PyStr.of_nat (100 * k) ++ "/"
                            ++ PyStr.of_nat n ++ " comics..."))
            (seq 1 (n / 100))
     ++ [Line ("Completed sentiment analysis for " ++ PyStr.of_nat n
               ++ " comics")])%list
  /\ ((n < 100)%nat -> List.length (stdout w') = (List.length (stdout w) + 5)%nat)
  /\ disk w' = disk w
  /\ written w' = written w.
Proof.
  cbv zeta. rewrite compute_sentiment_console. cbn [snd stdout disk written].
  split; [reflexivity|]. split; [|split; reflexivity].
  intros Hn. unfold scoring_report, progress_lines.
  rewrite (Nat.div_small _ _ Hn). cbn [seq map].
  rewrite !length_app. cbn [List.length]. lia.
Qed.

(** ** Counting rows by year *)

Lemma fold_left_add (l : list nat) :
  forall a, fold_left Nat.add l a = (a + list_sum l)%nat.
Proof.
  unfold list_sum.
  induction l as [|x l IH]; intros a; cbn; [lia|]. rewrite IH. lia.
Qed.

Lemma count_sum_list_sum (stats : DataFrame YearStats) :
  count_sum stats = list_sum (map comic_count stats).
Proof. unfold count_sum. now rewrite fold_left_add. Qed.

Lemma count_occ_cons_sum (a : Z) (l keys : list Z) :
  list_sum (map (count_occ Z.eq_dec (a :: l)) keys)
  = (count_occ Z.eq_dec keys a + list_sum (map (count_occ Z.eq_dec l) keys))%nat.
Proof.
  assert (Hc : forall x r, list_sum (x :: r) = (x + list_sum r)%nat) by reflexivity.
  induction keys as [|k keys IH]; [reflexivity|].
  cbn [map]. rewrite !Hc, IH. cbn [count_occ].
  destruct (Z.eq_dec a k) as [E|E]; destruct (Z.eq_dec k a) as [E'|E'];
    try congruence; lia.
Qed.

(** Counting every key once counts every element once. *)
Lemma count_occ_partition (l keys : list Z) :
  NoDup keys -> (forall y, In y l -> In y keys) ->
  list_sum (map (count_occ Z.eq_dec l) keys) = List.length l.
Proof.
  intros Hnd. induction l as [|a l IH]; intros Hin.
  - clear Hnd Hin. induction keys as [|k keys IHk]; [reflexivity|].
    cbn. exact IHk.
  - rewrite count_occ_cons_sum, IH by (intros y Hy; apply Hin; now right).
    rewrite (proj1 (NoDup_count_occ' Z.eq_dec keys) Hnd a) by (apply Hin; now left).
    reflexivity.
Qed.

Lemma count_sum_rows (df : DataFrame ScoredRecord) :
  count_sum (yearly_stats_of df) = List.length df.
Proof.
  rewrite count_sum_list_sum, yearly_stats_of_eq, map_map. cbn [comic_count].
  rewrite (map_ext _ (count_occ Z.eq_dec (map (fun r => year (doc r)) df)))
    by (intros y; apply group_rows_length).
  rewrite count_occ_partition, length_map; [reflexivity| |].
  - apply strictly_sorted_NoDup, group_keys_sorted.
  - intros y. apply group_keys_In.
Qed.

(** The whole run of [aggregate_by_year] on a frame with rows. *)
Lemma aggregate_by_year_console (df : DataFrame ScoredRecord) (w : world) :
  df <> [] ->
  aggregate_by_year df w =
  (Py.Ok (yearly_stats_of df),
   mk_world (disk w)
     (stdout w
      ++ [Line (nl ++ "Aggregating sentiment by year...");
          Line ("Aggregated data for "
                ++ PyStr.of_nat (List.length (yearly_stats_of df)) ++ " years");
          Line ("Total comics analyzed: " ++ PyStr.of_nat (List.length df))])%list
     (written w)).
Proof.
  intros Hne. rewrite <- (count_sum_rows df).
  unfold aggregate_by_year, groupby_year. py_unfold.
  destruct df as [|r df]; [congruence|]. py_unfold.
  rewrite <- !app_assoc. reflexivity.
Qed.

(** X5. On a frame with rows [aggregate_by_year] counts every row in exactly
    one year: the counts of the table add up to the number of rows, which is
    the number its last line prints as the total of comics analysed. *)
Theorem X5_counts_add_up (df : DataFrame ScoredRecord) (w : world) :
  df <> [] ->
  exists stats w',
    aggregate_by_year df w = (Py.Ok stats, w')
    /\ list_sum (map comic_count stats) = List.length df
    /\ count_sum stats = List.length df
    /\ stdout w' =
       (stdout w
        ++ [Line (nl ++ "Aggregating sentiment by year...");
            Line ("Aggregated data for " ++ PyStr.of_nat (List.length stats)
                  ++ " years");
            Line ("Total comics analyzed: " ++ PyStr.of_nat (List.length df))])%list.
Proof.
  intros Hne. eexists. eexists.
  split; [apply (aggregate_by_year_console df w Hne)|].
  split; [rewrite <- count_sum_list_sum; apply count_sum_rows|].
  split; [apply count_sum_rows | reflexivity].
Qed.

Lemma X5_witness :
  exists stats w',
    aggregate_by_year
      [mk_scored (mk_record "1989-04-16" 1989 "Good morning") "POSITIVE" (6#10) (6#10);
       mk_scored (mk_record "1990-01-01" 1990 "Bad day") "NEGATIVE" (8#10) (-8#10);
       mk_scored (mk_record "1989-04-17" 1989 "Meh") "NEGATIVE" (2#10) (-2#10)]
      (fresh_world "data.json" Missing) = (Py.Ok stats, w')
    /\ list_sum (map comic_count stats) = 3%nat
    /\ count_sum stats = 3%nat
    /\ stdout w' =
       [Line (nl ++ "Aggregating sentiment by year...");
        Line ("Aggregated data for " ++ PyStr.of_nat (List.length stats) ++ " years");
        Line "Total comics analyzed: 3"].
Proof.
  apply (X5_counts_add_up
           [mk_scored (mk_record "1989-04-16" 1989 "Good morning") "POSITIVE" (6#10) (6#10);
            mk_scored (mk_record "1990-01-01" 1990 "Bad day") "NEGATIVE" (8#10) (-8#10);
            mk_scored (mk_record "1989-04-17" 1989 "Meh") "NEGATIVE" (2#10) (-2#10)]
           (fresh_world "data.json" Missing)).
  discriminate.
Defined.

(** X7. The [sort_values('year')] of line 218 never moves a row: the groups
    of [groupby] come in ascending key order, so the table is the list of
    their aggregates as it stands. *)
Theorem X7_sort_values_is_identity (df : DataFrame ScoredRecord) :
  sort_values_year
    (map agg_group
       (map (fun y => (y, group_rows df y))
            (group_keys (map (fun r => year (doc r)) df))))
  = map agg_group
      (map (fun y => (y, group_rows df y))
           (group_keys (map (fun r => year (doc r)) df))).
Proof.
  apply sort_values_year_sorted.
  rewrite agg_group_years. apply group_keys_sorted.
Qed.

(** ** Means stay within the range of the values *)






(** X3. With a classifier that keeps to its contract, label POSITIVE or
    NEGATIVE and score within [0, 1], every [sentiment_value] computed by
    [compute_sentiment] lies within [-1, 1], as the comment of line 163
    announces. *)
Theorem X3_values_within_unit_range
    (sentiment_analyzer : string -> ClassifierOutput)
    (df : DataFrame DocumentRecord) (w : world) :
  (forall d, In d df -> Spec.in_contract (sentiment_analyzer (text d)) = true) ->
  exists rows,
    outcome (compute_sentiment sentiment_analyzer df) w = Py.Ok rows
    /\ List.length rows = List.length df
    /\ Forall (fun r => (-(1) <= sentiment_value r <= 1)%Q) rows.
Proof.
  intros Hc. exists (map (scored sentiment_analyzer) df).
  split; [apply compute_sentiment_outcome|].
  split; [apply length_map|].
  apply Forall_forall. intros r Hr.
  apply in_map_iff in Hr as (d & <- & Hd).
  specialize (Hc d Hd). unfold Spec.in_contract in Hc.
  apply andb_true_iff in Hc as [Hc H1].
  apply andb_true_iff in Hc as [_ H0].
  apply Qle_bool_iff in H0, H1.
  unfold scored, signed_value. cbn [sentiment_value].
  destruct (String.eqb (label (sentiment_analyzer (text d))) "POSITIVE");
    split; lra.
Qed.

Lemma X3_witness :
  exists rows,
    outcome (compute_sentiment
               (fun t => if String.eqb t "Bad day" then mk_output "NEGATIVE" (8#10)
                         else mk_output "POSITIVE" (9#10))
               [mk_record "1990-01-01" 1990 "Bad day";
                mk_record "1989-04-16" 1989 "Good morning"])
            (fresh_world "data.json" Missing) = Py.Ok rows
    /\ List.length rows = 2%nat
    /\ Forall (fun r => (-(1) <= sentiment_value r <= 1)%Q) rows.
Proof.
  apply (X3_values_within_unit_range
           (fun t => if String.eqb t "Bad day" then mk_output "NEGATIVE" (8#10)
                     else mk_output "POSITIVE" (9#10))
           [mk_record "1990-01-01" 1990 "Bad day";
            mk_record "1989-04-16" 1989 "Good morning"]
           (fresh_world "data.json" Missing)).
  intros d [<-|[<-|[]]]; reflexivity.
Defined.

(** ** More on the loader *)







(** ** The year range printed by the loader *)







(** ** Whole runs of [main] *)




















(** X15. Only the transcript field of an entry matters to the loader: two
    entries that agree on it, whatever their other fields, take the loop
    through the same turn. *)
Theorem X15_other_fields_ignored (key : string) (e1 e2 : entry)
    (records : list DocumentRecord) (skipped : nat) (w : world) :
  Spec.text_field e1 = Spec.text_field e2 ->
  load_entry (key, e1) (records, skipped) w
  = load_entry (key, e2) (records, skipped) w.
Proof.
  intros H. rewrite !load_entry_run.
  unfold Spec.build, Spec.warned_entry, Spec.no_text. cbn [fst snd].
  now rewrite H.
Qed.

Lemma X15_witness :
  load_entry ("1989-04-16",
              [("title", "Untitled"); ("transcript", "Good morning")])
             ([], 0%nat) (fresh_world "data.json" Missing)
  = load_entry ("1989-04-16",
                [("transcript", "Good morning"); ("image", "a.gif")])
               ([], 0%nat) (fresh_world "data.json" Missing).
Proof.
  apply (X15_other_fields_ignored "1989-04-16"
           [("title", "Untitled"); ("transcript", "Good morning")]
           [("transcript", "Good morning"); ("image", "a.gif")]
           [] 0%nat (fresh_world "data.json" Missing)).
  reflexivity.
Defined.


